(** * cashlens PDF parser: a shallow embedding of services/pdf-parser/app.py

    The development embeds the extraction core of the Flask service
    (the Row Cleaner, the Header Deduplicator, the two extractors with their
    inlined Table Merger, and the strategy selection of [parse_pdf]) and
    proves the properties the design document states about them; it then
    embeds the route [/parse] whole, with the checks on the upload and the
    temporary file, and proves what the code shows besides. *)

From Stdlib Require Import String Ascii NArith Arith Bool Lia List.
Import ListNotations.
Local Open Scope list_scope.

(* ===================================================================== *)
(** ** Python values *)
(* ===================================================================== *)

(** A Python [str] is a sequence of Unicode code points. *)
Definition pystr : Type := list N.

(** A literal of the source, written as a Rocq string (ASCII only). *)
Definition lit (s : string) : pystr :=
  map N_of_ascii (list_ascii_of_string s).

(** Equality of two strings, Python's [==] on [str]. *)
Fixpoint str_eqb (a b : pystr) : bool :=
  match a, b with
  | [], [] => true
  | x :: a', y :: b' => N.eqb x y && str_eqb a' b'
  | _, _ => false
  end.

(** Truth value of a string or of a list: non-empty. *)
Definition truthy {A : Type} (l : list A) : bool :=
  match l with
  | [] => false
  | _ :: _ => true
  end.

(** The code points [str.strip()] removes when called without argument
    (CPython's [Py_UNICODE_ISSPACE]). *)
Definition is_space (c : N) : bool :=
  ((9 <=? c) && (c <=? 13) ||
   (28 <=? c) && (c <=? 32) ||
   (c =? 133) || (c =? 160) || (c =? 5760) ||
   (8192 <=? c) && (c <=? 8202) ||
   (c =? 8232) || (c =? 8233) || (c =? 8239) || (c =? 8287) ||
   (c =? 12288))%N.

(** [str.lstrip()]: the leading run of white space is removed. *)
Fixpoint lstrip (s : pystr) : pystr :=
  match s with
  | [] => []
  | c :: s' => if is_space c then lstrip s' else s
  end.

(** [str.rstrip()]: the trailing run of white space is removed. *)
Definition rstrip (s : pystr) : pystr := rev (lstrip (rev s)).

(** [str.strip()]: white space is removed at both ends. *)
Definition strip (s : pystr) : pystr := rstrip (lstrip s).

(** A cell of an extracted table is [None] or a string, a row is a list
    of cells and a table a list of rows. *)
Abbreviation Cell := (option pystr) (only parsing).
Abbreviation Row := (list (option pystr)) (only parsing).
Abbreviation Table := (list (list (option pystr))) (only parsing).

(** [str(cell)]: the string itself, and the text None for [None]. *)
Definition py_str (cell : Cell) : pystr :=
  match cell with
  | None => lit "None"
  | Some s => s
  end.

(** Truth value of a cell: [None] and the empty string are false. *)
Definition cell_truthy (cell : Cell) : bool :=
  match cell with
  | None => false
  | Some s => truthy s
  end.

(** The Extraction Result, the dictionary both extractors return. *)
Record extraction_result : Type := mk_result {
  rows : list (list pystr);
  pages_processed : nat;
  method_used : pystr;
  total_rows : nat
}.

(* ===================================================================== *)
(** ** Row Cleaner: [clean_rows] (lines 212-227) *)
(* ===================================================================== *)

(** [str(cell).strip() if cell is not None else ''] *)
Definition clean_cell (cell : Cell) : pystr :=
  match cell with
  | Some _ => strip (py_str cell)
  | None => []
  end.

(** The [for row in rows] loop, with the list [cleaned] it appends to. *)
Fixpoint clean_rows_loop (rows : list Row) (cleaned : list (list pystr))
  : list (list pystr) :=
  match rows with
  | [] => cleaned
  | row :: rest =>
      let cleaned_row := map clean_cell row in
      if existsb truthy cleaned_row
      then clean_rows_loop rest (cleaned ++ [cleaned_row])
      else clean_rows_loop rest cleaned
  end.

Definition clean_rows (rows : list Row) : list (list pystr) :=
  clean_rows_loop rows [].

(** A cleaned row sequence read again as input rows (every cell a string). *)
Definition as_rows (rs : list (list pystr)) : list Row :=
  map (map (@Some pystr)) rs.

(** An ASCII instance of [str.lower()], used to run the model on ASCII
    text: A-Z are mapped to a-z, every other code point is kept. *)
Definition ascii_lower (s : pystr) : pystr :=
  map (fun c => if ((65 <=? c) && (c <=? 90))%N then (c + 32)%N else c) s.

(* ===================================================================== *)
(** ** Library calls: outcomes, the call trace and exceptions *)
(* ===================================================================== *)

(** The message [str(e)] of a raised exception. *)
Definition exn : Type := pystr.

Inductive flavor : Type := Lattice | Stream.

(** The calls into the two PDF libraries, in the order they are made. *)
Inductive event : Type :=
| PdfplumberOpen
| ExtractTables (page_num : nat)
| CamelotReadPdf (f : flavor).

(** A computation makes library calls and then raises or returns. *)
Definition M (A : Type) : Type := (list event * (exn + A))%type.

Definition ret {A : Type} (a : A) : M A := ([], inr a).

Definition bind {A B : Type} (m : M A) (k : A -> M B) : M B :=
  match m with
  | (t, inl e) => (t, inl e)
  | (t, inr a) => let (t', r) := k a in (t ++ t', r)
  end.

(** One library call, with the outcome the library gives. *)
Definition call {A : Type} (ev : event) (outcome : exn + A) : M A :=
  ([ev], outcome).

(** [try: m  except: handler] with a bare [except]. *)
Definition try_except {A : Type} (m handler : M A) : M A :=
  match m with
  | (t, inl _) => let (t', r) := handler in (t ++ t', r)
  | (t, inr a) => (t, inr a)
  end.

Notation "x <- m ;; k" := (bind m (fun x => k))
  (at level 61, m at next level, right associativity).

Definition trace {A : Type} (m : M A) : list event := fst m.
Definition outcome {A : Type} (m : M A) : exn + A := snd m.

(** What the two libraries give for the uploaded file: the pages
    [pdfplumber.open(path).pages] with the tables [page.extract_tables()]
    finds on each, and the tables [camelot.read_pdf] finds in each flavor
    (every table already as [table.df.values.tolist()]). Each call may
    raise instead. *)
Record document : Type := mk_document {
  pdf_pages : exn + list (exn + list Table);
  read_pdf_lattice : exn + list Table;
  read_pdf_stream : exn + list Table
}.

Definition is_camelot_event (ev : event) : bool :=
  match ev with
  | CamelotReadPdf _ => true
  | _ => false
  end.

(** The fallback extractor was invoked: the trace has a camelot call. *)
Definition fallback_invoked (t : list event) : bool :=
  existsb is_camelot_event t.

(** The response of the endpoint. *)
Inductive response : Type :=
| Json200 (result : extraction_result)
| Json500 (error : pystr).

(** Line 82 and lines 84-86: the JSON of the result, or the error. *)
Definition respond (o : exn + extraction_result) : response :=
  match o with
  | inr result => Json200 result
  | inl e => Json500 (lit "Failed to parse PDF: " ++ e)
  end.

(** [cell and str(cell).strip()], as a truth value. *)
Definition cell_has_text (cell : Cell) : bool :=
  cell_truthy cell && truthy (strip (py_str cell)).

(** The row filter of [extract_with_pdfplumber] (lines 114-117). *)
Definition pdfplumber_filter (table : Table) : list Row :=
  filter (fun row => truthy row && existsb cell_has_text row) table.

(** The row filter of [extract_with_camelot] (lines 170-173). *)
Definition camelot_filter (rows : list Row) : list Row :=
  filter (fun row => existsb cell_has_text row) rows.

Section Parser.

(** [str.lower()]: the Unicode case mapping is the interpreter's. *)
Variable str_lower : pystr -> pystr.

(* ===================================================================== *)
(** ** Header Deduplicator: [is_header_row] (lines 197-209) *)
(* ===================================================================== *)

(** [str(cell).strip().lower()] *)
Definition header_key (cell : Cell) : pystr :=
  str_lower (strip (py_str cell)).

(** The [for i in range(...)] loop: true at the first position that matches. *)
Fixpoint header_loop (range : list nat) (row header_row : Row) : bool :=
  match range with
  | [] => false
  | i :: rest =>
      if str_eqb (header_key (nth i row None)) (header_key (nth i header_row None))
      then true
      else header_loop rest row header_row
  end.

Definition is_header_row (row header_row : Row) : bool :=
  if negb (truthy row) || negb (truthy header_row) then false
  else header_loop
         (seq 0 (Nat.min 3 (Nat.min (length row) (length header_row))))
         row header_row.

(* ===================================================================== *)
(** ** Table Merger: the block both extractors inline
       (lines 123-131 and 179-187) *)
(* ===================================================================== *)

Definition merge_table (all_rows filtered_rows : list Row) : list Row :=
  if negb (truthy all_rows) then all_rows ++ filtered_rows
  else if is_header_row (nth 0 filtered_rows []) (nth 0 all_rows [])
       then all_rows ++ skipn 1 filtered_rows
       else all_rows ++ filtered_rows.

(* ===================================================================== *)
(** ** Primary extractor: [extract_with_pdfplumber] (lines 94-138) *)
(* ===================================================================== *)

(** The [for table in tables] loop of one page. *)
Fixpoint pdfplumber_tables_loop (tables : list Table) (all_rows : list Row)
  : list Row :=
  match tables with
  | [] => all_rows
  | table :: rest =>
      let filtered_rows := pdfplumber_filter table in
      if length filtered_rows <? 2
      then pdfplumber_tables_loop rest all_rows
      else pdfplumber_tables_loop rest (merge_table all_rows filtered_rows)
  end.

(** The [for page_num, page in enumerate(pdf.pages, start=1)] loop. *)
Fixpoint pages_loop (page_num : nat) (pages : list (exn + list Table))
    (all_rows : list Row) (processed : nat) : M (list Row * nat) :=
  match pages with
  | [] => ret (all_rows, processed)
  | page :: rest =>
      tables <- call (ExtractTables page_num) page ;;
      if negb (truthy tables)
      then pages_loop (S page_num) rest all_rows processed
      else pages_loop (S page_num) rest
             (pdfplumber_tables_loop tables all_rows) (processed + 1)
  end.

Definition extract_with_pdfplumber (doc : document) : M extraction_result :=
  pages <- call PdfplumberOpen (pdf_pages doc) ;;
  st <- pages_loop 1 pages [] 0 ;;
  let (all_rows, processed) := st in
  ret {| rows := clean_rows all_rows;
         pages_processed := processed;
         method_used := lit "pdfplumber";
         total_rows := length all_rows |}.

(* ===================================================================== *)
(** ** Fallback extractor: [extract_with_camelot] (lines 141-194) *)
(* ===================================================================== *)

(** The [for table_num, table in enumerate(tables)] loop. *)
Fixpoint camelot_tables_loop (tables : list Table) (all_rows : list Row)
  : list Row :=
  match tables with
  | [] => all_rows
  | rows :: rest =>
      let filtered_rows := camelot_filter rows in
      if length filtered_rows <? 2
      then camelot_tables_loop rest all_rows
      else camelot_tables_loop rest (merge_table all_rows filtered_rows)
  end.

(** Lines 152-194: the result built from the tables camelot found. *)
Definition camelot_result (tables : list Table) : extraction_result :=
  if negb (truthy tables)
  then {| rows := []; pages_processed := 0;
          method_used := lit "camelot"; total_rows := 0 |}
  else
    let all_rows := camelot_tables_loop tables [] in
    {| rows := clean_rows all_rows;
       pages_processed := length tables;
       method_used := lit "camelot";
       total_rows := length all_rows |}.

(** Lines 146-150: lattice mode, and stream mode when lattice raises. *)
Definition camelot_read (doc : document) : M (list Table) :=
  try_except (call (CamelotReadPdf Lattice) (read_pdf_lattice doc))
             (call (CamelotReadPdf Stream) (read_pdf_stream doc)).

Definition extract_with_camelot (doc : document) : M extraction_result :=
  tables <- camelot_read doc ;;
  ret (camelot_result tables).

(* ===================================================================== *)
(** ** Strategy Selector: the [try] block of [parse_pdf] (lines 74-86) *)
(* ===================================================================== *)

(** Lines 76-80. The result of the primary extractor is a dictionary with
    four keys, so [not result] is false and the test is on its rows. *)
Definition select_strategy (doc : document) : M extraction_result :=
  result <- extract_with_pdfplumber doc ;;
  if length (rows result) <? 2
  then extract_with_camelot doc
  else ret result.

(** The document is the upload saved at [tmp_path]; the result is sent as
    JSON (line 82) and an exception of the extraction becomes the 500
    response of lines 84-86. *)
Definition parse_pdf (doc : document) : list event * response :=
  let (t, o) := select_strategy doc in (t, respond o).

(* ===================================================================== *)
(** ** The Table Merger of the design document *)
(* ===================================================================== *)

(** The first row of [t] matches the Header Signature, the first row of
    the first table [t1]. *)
Definition header_match (t1 t : Table) : bool :=
  is_header_row (nth 0 t []) (nth 0 t1 []).

(** The tables in their order, each with its rows in their order, a later
    table without its first row when that row matches the signature. *)
Definition merged_rows (t1 : Table) (rest : list Table) : list Row :=
  t1 ++ concat (map (fun t => if header_match t1 t then skipn 1 t else t) rest).

(** [len(table_1) + sum over i > 1 of (len(table_i) - [header match])] *)
Definition merged_length (t1 : Table) (rest : list Table) : nat :=
  length t1 +
  list_sum (map (fun t => length t - (if header_match t1 t then 1 else 0)) rest).

End Parser.

(* ===================================================================== *)
(** ** What the design document says, as definitions of its own *)
(* ===================================================================== *)

(** A string neither starts nor ends with white space. *)
Definition starts_clean (s : pystr) : Prop :=
  match s with
  | [] => True
  | c :: _ => is_space c = false
  end.

Definition trimmed (s : pystr) : Prop :=
  starts_clean s /\ starts_clean (rev s).

(** The Row Cleaner of the design document: every cell trimmed, null as
    the empty string, rows with only empty cells dropped. *)
Definition trim_cell (cell : Cell) : pystr :=
  match cell with
  | None => []
  | Some s => strip s
  end.

Definition all_empty (r : list pystr) : bool :=
  forallb (fun c => negb (truthy c)) r.

Definition clean_rows_spec (rs : list Row) : list (list pystr) :=
  filter (fun r => negb (all_empty r)) (map (map trim_cell) rs).

(** A row with at least one non-empty cell, as both extractors test it. *)
Definition row_has_text (row : Row) : bool := existsb cell_has_text row.

Definition rows_have_text (rs : list Row) : Prop :=
  Forall (fun row => row_has_text row = true) rs.

(** A surviving Page Table: filtered to rows with a non-empty cell, and
    with at least two of them. *)
Definition surviving (t : Table) : Prop :=
  rows_have_text t /\ 2 <= length t.

(** The surviving tables among the raw tables of a document: each filtered
    to its rows with text, those with fewer than two such rows left out. *)
Definition surviving_tables (tables : list Table) : list Table :=
  filter (fun t => negb (length t <? 2)) (map camelot_filter tables).

(** The pages that yielded at least one surviving table. *)
Definition page_yields_surviving (tables : list Table) : bool :=
  existsb (fun table => 2 <=? length (pdfplumber_filter table)) tables.

Definition surviving_pages (pages : list (list Table)) : nat :=
  length (filter page_yields_surviving pages).

(** The pages on which [extract_tables] found at least one table. *)
Definition pages_with_tables (pages : list (list Table)) : nat :=
  length (filter truthy pages).

(** Pages on each of which [extract_tables] returns its tables. *)
Definition ok_pages (pages : list (list Table)) : list (exn + list Table) :=
  map (@inr exn (list Table)) pages.

(** The result of the fallback extractor when camelot finds no table. *)
Definition empty_camelot_result : extraction_result :=
  {| rows := []; pages_processed := 0;
     method_used := lit "camelot"; total_rows := 0 |}.

(* ===================================================================== *)
(** ** Sample documents *)
(* ===================================================================== *)

Definition txt (s : string) : Cell := Some (lit s).

(** A statement table: a header and two transactions. *)
Definition page1_table : Table :=
  [ [txt "Date"; txt "Description"; txt "Amount"];
    [txt "01/01/2024"; txt "AWS SERVICES"; txt "3500.00"];
    [txt "02/01/2024"; txt "RENT"; txt "12000.00"] ].

(** The table of a second page: the header again, one transaction and a
    row of empty cells. *)
Definition page2_table : Table :=
  [ [txt " DATE "; txt "Details"; None];
    [None; txt "  "; txt ""];
    [txt "03/01/2024"; txt "SALARY"; None] ].

(** The second table once its rows without text are filtered out. *)
Definition page2_rows : Table :=
  [ [txt " DATE "; txt "Details"; None];
    [txt "03/01/2024"; txt "SALARY"; None] ].

(** A table with a single row: too small to be a transaction table. *)
Definition footer_table : Table := [ [txt "Page 1 of 1"] ].

(** Two pages with a statement table each. *)
Definition statement_doc : document :=
  {| pdf_pages := inr [inr [page1_table]; inr [page2_table]];
     read_pdf_lattice := inr [];
     read_pdf_stream := inr [] |}.

(** One page whose only table is too small; lattice mode raises and stream
    mode finds the statement tables. *)
Definition footer_doc : document :=
  {| pdf_pages := inr [inr [footer_table]];
     read_pdf_lattice := inl (lit "no grid lines");
     read_pdf_stream := inr [page1_table; page2_table] |}.

(* ===================================================================== *)
(** ** The route [/parse]: [parse_pdf] whole (lines 36-91) *)
(* ===================================================================== *)

(** [s.endswith(suffix)] *)
Definition endswith (s suffix : pystr) : bool :=
  str_eqb (skipn (length s - length suffix) s) suffix.

(** The part [request.files['file']] of a request: its file name, what
    [file.save(tmp_file.name)] does (it may raise), what the two libraries
    give for the saved file, and what [os.path.exists(tmp_path)] answers
    when the [finally] clause asks. *)
Record upload : Type := mk_upload {
  filename : pystr;
  save_outcome : exn + unit;
  saved : document;
  tmp_exists : bool
}.

(** What the route does outside itself, in order: the temporary file, the
    library calls of the extraction, the log line and the clean-up. *)
Inductive io_event : Type :=
| TmpCreate
| FileSave
| Lib (ev : event)
| LogError (message : pystr)
| PathExists
| Unlink.

(** The reply of the route: the result with status 200, or an error
    object with its status. *)
Inductive http_reply : Type :=
| Ok200 (result : extraction_result)
| Error (status : nat) (error : pystr).

Section Route.

Variable str_lower : pystr -> pystr.

(** Lines 88-91: the [finally] clause. *)
Definition cleanup (file : upload) : list io_event :=
  PathExists :: (if tmp_exists file then [Unlink] else []).

(** The route, on the entry [file] of [request.files] when there is one.
    An exception of [file.save] is raised before the [try] block and leaves
    the function. [NamedTemporaryFile], [jsonify], the logger,
    [os.path.exists] and [os.unlink] are taken not to raise. *)
Definition parse_pdf_route (files : option upload)
  : list io_event * (exn + http_reply) :=
  match files with
  | None => ([], inr (Error 400 (lit "No file uploaded")))
  | Some file =>
      if str_eqb (filename file) []
      then ([], inr (Error 400 (lit "Empty filename")))
      else if negb (endswith (str_lower (filename file)) (lit ".pdf"))
      then ([], inr (Error 400 (lit "File must be a PDF")))
      else
        match save_outcome file with
        | inl e => ([TmpCreate; FileSave], inl e)
        | inr _ =>
            let (t, o) := select_strategy str_lower (saved file) in
            match o with
            | inr result =>
                ([TmpCreate; FileSave] ++ map Lib t ++ cleanup file,
                 inr (Ok200 result))
            | inl e =>
                ([TmpCreate; FileSave] ++ map Lib t ++
                 [LogError (lit "PDF parsing error: " ++ e)] ++ cleanup file,
                 inr (Error 500 (lit "Failed to parse PDF: " ++ e)))
            end
        end
  end.

End Route.

(** The file name passes the checks of lines 63-67. *)
Definition accepted_name (str_lower : pystr -> pystr) (name : pystr) : bool :=
  negb (str_eqb name []) && endswith (str_lower name) (lit ".pdf").


(** The reply for a response of the extraction (lines 82 and 86). *)
Definition reply_of (resp : response) : http_reply :=
  match resp with
  | Json200 result => Ok200 result
  | Json500 error => Error 500 error
  end.

(** The log line of line 85, when the extraction raised. *)
Definition log_of (o : exn + extraction_result) : list io_event :=
  match o with
  | inr _ => []
  | inl e => [LogError (lit "PDF parsing error: " ++ e)]
  end.


Definition is_unlink (ev : io_event) : bool :=
  match ev with
  | Unlink => true
  | _ => false
  end.

(* ===================================================================== *)
(** ** Blank cells *)
(* ===================================================================== *)

(** A string of white space only (the empty string too). *)
Definition blank (s : pystr) : bool := forallb is_space s.

(** A cell without text: [None] or a blank string. *)
Definition cell_blank (cell : Cell) : bool :=
  match cell with
  | None => true
  | Some s => blank s
  end.

Definition row_blank (row : Row) : bool := forallb cell_blank row.

(** A row sequence is empty or has two rows at least. *)
Definition never_one {A : Type} (rs : list A) : Prop :=
  rs = [] \/ 2 <= length rs.

(* ===================================================================== *)
(** ** More sample inputs *)
(* ===================================================================== *)

(** The second page cannot be read. *)
Definition broken_page_doc : document :=
  {| pdf_pages := inr [inr [page1_table]; inl (lit "bad page"); inr [page2_table]];
     read_pdf_lattice := inr [page1_table];
     read_pdf_stream := inr [] |}.

(** No table on the page, and camelot raises in both modes. *)
Definition unreadable_doc : document :=
  {| pdf_pages := inr [inr []];
     read_pdf_lattice := inl (lit "no grid lines");
     read_pdf_stream := inl (lit "no text layer") |}.

(** The file cannot be opened at all. *)
Definition corrupt_doc : document :=
  {| pdf_pages := inl (lit "not a PDF");
     read_pdf_lattice := inr [page1_table; page2_table];
     read_pdf_stream := inr [] |}.

(** The same tables for both extractors. *)
Definition same_tables_doc : document :=
  {| pdf_pages := inr [inr [page1_table; footer_table]; inr [page2_table]];
     read_pdf_lattice := inr [page1_table; footer_table; page2_table];
     read_pdf_stream := inr [] |}.


Definition corrupt_upload : upload :=
  {| filename := lit "scan.pdf";
     save_outcome := inr tt;
     saved := corrupt_doc;
     tmp_exists := true |}.

Definition unsaved_upload : upload :=
  {| filename := lit "scan.pdf";
     save_outcome := inl (lit "disk full");
     saved := statement_doc;
     tmp_exists := true |}.

Definition text_upload : upload :=
  {| filename := lit "notes.txt";
     save_outcome := inr tt;
     saved := statement_doc;
     tmp_exists := true |}.

(* ===================================================================== *)
(** ** Strings *)
(* ===================================================================== *)

Lemma str_eqb_refl (s : pystr) : str_eqb s s = true.
Proof.
  induction s as [|c s IH]; simpl; [reflexivity|].
  now rewrite N.eqb_refl, IH.
Qed.

Lemma str_eqb_eq (a b : pystr) : str_eqb a b = true <-> a = b.
Proof.
  split.
  - revert b. induction a as [|x a IH]; intros [|y b] H; simpl in H;
      try discriminate; [reflexivity|].
    apply andb_true_iff in H. destruct H as [Hxy Hab].
    apply N.eqb_eq in Hxy. apply IH in Hab. now subst.
  - intros ->. apply str_eqb_refl.
Qed.

Lemma lstrip_starts_clean (s : pystr) : starts_clean (lstrip s).
Proof.
  induction s as [|c s IH]; simpl; [exact I|].
  destruct (is_space c) eqn:E; [exact IH|exact E].
Qed.

Lemma lstrip_fixed (s : pystr) : starts_clean s -> lstrip s = s.
Proof. destruct s as [|c s]; simpl; intros H; [reflexivity|now rewrite H]. Qed.

(** [lstrip] cuts a prefix: what is left is a suffix of the input. *)
Lemma lstrip_suffix (s : pystr) : exists p, s = p ++ lstrip s.
Proof.
  induction s as [|c s [p Hp]]; simpl.
  - now exists [].
  - destruct (is_space c).
    + exists (c :: p). simpl. now f_equal.
    + now exists [].
Qed.

Lemma starts_clean_prefix (a b : pystr) :
  starts_clean (a ++ b) -> starts_clean a.
Proof. destruct a; simpl; auto. Qed.

Lemma rstrip_keeps_start (s : pystr) :
  starts_clean s -> starts_clean (rstrip s).
Proof.
  intros H. unfold rstrip.
  destruct (lstrip_suffix (rev s)) as [p Hp].
  apply (f_equal (@rev N)) in Hp. rewrite rev_involutive, rev_app_distr in Hp.
  rewrite Hp in H. now apply starts_clean_prefix in H.
Qed.

Lemma strip_trimmed (s : pystr) : trimmed (strip s).
Proof.
  unfold strip. split.
  - apply rstrip_keeps_start, lstrip_starts_clean.
  - unfold rstrip. rewrite rev_involutive. apply lstrip_starts_clean.
Qed.

Lemma strip_fixed (s : pystr) : trimmed s -> strip s = s.
Proof.
  intros [H1 H2]. unfold strip, rstrip.
  rewrite (lstrip_fixed s H1), (lstrip_fixed (rev s) H2).
  apply rev_involutive.
Qed.

Lemma strip_idempotent (s : pystr) : strip (strip s) = strip s.
Proof. apply strip_fixed, strip_trimmed. Qed.

(* ===================================================================== *)
(** ** Row Cleaner *)
(* ===================================================================== *)

Lemma clean_cell_trim (cell : Cell) : clean_cell cell = trim_cell cell.
Proof. now destruct cell. Qed.

Lemma all_empty_existsb (r : list pystr) :
  negb (all_empty r) = existsb truthy r.
Proof.
  induction r as [|c r IH]; simpl; [reflexivity|].
  rewrite negb_andb, negb_involutive. now rewrite IH.
Qed.

Lemma clean_rows_loop_spec (rs : list Row) (cleaned : list (list pystr)) :
  clean_rows_loop rs cleaned = cleaned ++ clean_rows_spec rs.
Proof.
  revert cleaned. induction rs as [|r rs IH]; intros cleaned; simpl.
  - now rewrite app_nil_r.
  - unfold clean_rows_spec. simpl.
    rewrite all_empty_existsb.
    rewrite (map_ext _ _ clean_cell_trim r).
    destruct (existsb truthy (map trim_cell r)); rewrite IH.
    + now rewrite <- app_assoc.
    + reflexivity.
Qed.

Lemma clean_rows_refines (rs : list Row) : clean_rows rs = clean_rows_spec rs.
Proof. unfold clean_rows. now rewrite clean_rows_loop_spec. Qed.

Lemma trim_cell_trimmed (cell : Cell) : trimmed (trim_cell cell).
Proof.
  destruct cell; simpl; [apply strip_trimmed|].
  split; exact I.
Qed.

(** A row sequence that is already clean is left as it is. *)
Lemma clean_rows_fixed (l : list (list pystr)) :
  Forall (fun r => Forall trimmed r /\ existsb truthy r = true) l ->
  clean_rows (as_rows l) = l.
Proof.
  intros H. rewrite clean_rows_refines. unfold clean_rows_spec, as_rows.
  induction H as [|r l [Ht He] _ IH]; simpl; [reflexivity|].
  assert (Hr : map trim_cell (map (@Some pystr) r) = r).
  { clear He. induction Ht as [|c r Hc _ IHr]; simpl; [reflexivity|].
    now rewrite (strip_fixed c Hc), IHr. }
  rewrite Hr, all_empty_existsb, He. simpl. now rewrite IH.
Qed.

Lemma clean_rows_clean (rs : list Row) :
  Forall (fun r => Forall trimmed r /\ existsb truthy r = true) (clean_rows rs).
Proof.
  rewrite clean_rows_refines. unfold clean_rows_spec.
  apply Forall_forall. intros r Hin.
  apply filter_In in Hin. destruct Hin as [Hin Hne].
  apply in_map_iff in Hin. destruct Hin as [r0 [<- _]].
  split.
  - apply Forall_forall. intros c Hc.
    apply in_map_iff in Hc. destruct Hc as [c0 [<- _]].
    apply trim_cell_trimmed.
  - now rewrite <- all_empty_existsb.
Qed.

(** C5. The Row Cleaner computes what the design document describes: the
    rows of the input in their order, every cell replaced by its trimmed
    string and a null cell by the empty string, without the rows whose cells
    are all empty then. Every cell of the output neither starts nor ends
    with white space, and no row of the output has only empty cells. The
    function is total: it gives a result on every input. *)
Theorem clean_rows_contract (rs : list Row) :
  clean_rows rs = clean_rows_spec rs
  /\ Forall (Forall trimmed) (clean_rows rs)
  /\ Forall (fun r => all_empty r = false) (clean_rows rs)
  /\ trim_cell None = [].
Proof.
  split; [apply clean_rows_refines|].
  pose proof (clean_rows_clean rs) as H.
  split; [|split; [|reflexivity]].
  - eapply Forall_impl; [|exact H]. now intros r [Ht _].
  - eapply Forall_impl; [|exact H]. intros r [_ He]. simpl in He.
    rewrite <- all_empty_existsb in He.
    now destruct (all_empty r).
Qed.

(** C8. The Row Cleaner is idempotent: cleaning a cleaned row sequence
    gives the same sequence. *)
Theorem clean_rows_idempotent (rs : list Row) :
  clean_rows (as_rows (clean_rows rs)) = clean_rows rs.
Proof. apply clean_rows_fixed, clean_rows_clean. Qed.

Section ParserProofs.

Variable str_lower : pystr -> pystr.

(* ===================================================================== *)
(** ** Header Deduplicator *)
(* ===================================================================== *)

Lemma header_loop_true (range : list nat) (row header_row : Row) :
  header_loop str_lower range row header_row = true <->
  exists i, In i range /\
            header_key str_lower (nth i row None) =
            header_key str_lower (nth i header_row None).
Proof.
  induction range as [|j range IH]; simpl.
  - split; [discriminate|]. now intros [i [[] _]].
  - destruct (str_eqb _ _) eqn:E.
    + split; [|reflexivity]. intros _. exists j. split; [now left|].
      now apply str_eqb_eq.
    + rewrite IH. split.
      * intros [i [Hi Hk]]. exists i. split; [now right|exact Hk].
      * intros [i [[<-|Hi] Hk]].
        -- apply str_eqb_eq in Hk. congruence.
        -- now exists i.
Qed.

Lemma is_header_row_unfold (row header_row : Row) :
  is_header_row str_lower row header_row =
  header_loop str_lower
    (seq 0 (Nat.min 3 (Nat.min (length row) (length header_row))))
    row header_row.
Proof.
  unfold is_header_row.
  destruct row as [|c row]; [reflexivity|].
  destruct header_row as [|d header_row]; reflexivity.
Qed.

Lemma is_header_row_positions (row header_row : Row) :
  is_header_row str_lower row header_row = true <->
  exists i, i < Nat.min 3 (Nat.min (length row) (length header_row)) /\
            header_key str_lower (nth i row None) =
            header_key str_lower (nth i header_row None).
Proof.
  rewrite is_header_row_unfold, header_loop_true.
  split; intros [i [Hi Hk]]; exists i; (split; [|exact Hk]).
  - apply in_seq in Hi. lia.
  - apply in_seq. lia.
Qed.

(** C4. The Header Deduplicator answers true exactly when some position
    below min(3, len(candidate), len(signature)) holds the same text in both
    rows once each cell is converted to a string, trimmed and lowercased;
    with an empty candidate or an empty signature it answers false. *)
Theorem is_header_row_iff (row header_row : Row) :
  (is_header_row str_lower row header_row = true <->
   exists i, i < Nat.min 3 (Nat.min (length row) (length header_row)) /\
             str_lower (strip (py_str (nth i row None))) =
             str_lower (strip (py_str (nth i header_row None))))
  /\ is_header_row str_lower [] header_row = false
  /\ is_header_row str_lower row [] = false.
Proof.
  split; [|split].
  - apply is_header_row_positions.
  - reflexivity.
  - unfold is_header_row. now destruct row.
Qed.

(** C9. A non-empty row is a header match for itself. *)
Theorem is_header_row_self (H : Row) :
  H <> [] -> is_header_row str_lower H H = true.
Proof.
  intros Hne. apply is_header_row_positions.
  exists 0. split; [|reflexivity].
  destruct H as [|c H]; [congruence|]. simpl. lia.
Qed.

(* ===================================================================== *)
(** ** Table Merger *)
(* ===================================================================== *)

Lemma pdfplumber_filter_camelot (table : Table) :
  pdfplumber_filter table = camelot_filter table.
Proof.
  unfold pdfplumber_filter, camelot_filter.
  apply filter_ext. intros [|c row]; reflexivity.
Qed.

Lemma pdfplumber_loop_camelot (tables : list Table) (all_rows : list Row) :
  pdfplumber_tables_loop str_lower tables all_rows =
  camelot_tables_loop str_lower tables all_rows.
Proof.
  revert all_rows. induction tables as [|t tables IH]; intros all_rows; simpl.
  - reflexivity.
  - rewrite pdfplumber_filter_camelot.
    destruct (length (camelot_filter t) <? 2); apply IH.
Qed.

Lemma camelot_filter_surviving_rows (rows : list Row) :
  rows_have_text rows -> camelot_filter rows = rows.
Proof.
  unfold camelot_filter.
  induction 1 as [|row t Hrow _ IH]; simpl; [reflexivity|].
  unfold row_has_text in Hrow. now rewrite Hrow, IH.
Qed.

Lemma camelot_filter_surviving (t : Table) :
  surviving t -> camelot_filter t = t.
Proof. intros [Hrows _]. now apply camelot_filter_surviving_rows. Qed.

Lemma camelot_filter_has_text (rows : list Row) :
  rows_have_text (camelot_filter rows).
Proof.
  apply Forall_forall. intros row Hin.
  apply filter_In in Hin. now destruct Hin.
Qed.

Lemma camelot_loop_app (a b : list Table) (all_rows : list Row) :
  camelot_tables_loop str_lower (a ++ b) all_rows =
  camelot_tables_loop str_lower b (camelot_tables_loop str_lower a all_rows).
Proof.
  revert all_rows. induction a as [|t a IH]; intros all_rows; simpl.
  - reflexivity.
  - destruct (length (camelot_filter t) <? 2); apply IH.
Qed.

(** Once rows are accumulated, their first row is the Header Signature and
    every surviving table is appended, without its first row on a match. *)
Lemma camelot_loop_merged (sig : Row) (rest : list Table) :
  Forall surviving rest ->
  forall all_rows,
    all_rows <> [] ->
    nth 0 all_rows [] = sig ->
    camelot_tables_loop str_lower rest all_rows =
    all_rows ++
    concat (map (fun t => if is_header_row str_lower (nth 0 t []) sig
                          then skipn 1 t else t)
                rest).
Proof.
  induction 1 as [|t rest Ht _ IH]; intros all_rows Hne Hsig.
  - simpl. now rewrite app_nil_r.
  - cbn [camelot_tables_loop map concat].
    rewrite (camelot_filter_surviving t Ht).
    destruct Ht as [_ Hlen].
    destruct (Nat.ltb_spec (length t) 2) as [Hlt|_]; [lia|].
    unfold merge_table.
    destruct all_rows as [|r0 all_rows]; [congruence|].
    cbn [nth] in Hsig. subst r0. cbn [truthy negb nth].
    destruct (is_header_row str_lower (nth 0 t []) sig);
      (rewrite IH; [now rewrite <- app_assoc | discriminate | reflexivity]).
Qed.

Lemma camelot_loop_surviving (t1 : Table) (rest : list Table) :
  Forall surviving (t1 :: rest) ->
  camelot_tables_loop str_lower (t1 :: rest) [] = merged_rows str_lower t1 rest.
Proof.
  intros H. inversion H as [|? ? Ht1 Hrest]; subst.
  cbn [camelot_tables_loop].
  rewrite (camelot_filter_surviving t1 Ht1).
  destruct Ht1 as [_ Hlen].
  destruct (Nat.ltb_spec (length t1) 2) as [Hlt|_]; [lia|].
  unfold merge_table at 1. cbn [truthy negb app].
  unfold merged_rows, header_match.
  apply camelot_loop_merged; [exact Hrest| |reflexivity].
  destruct t1; [simpl in Hlen; lia|discriminate].
Qed.

Lemma merged_rows_length (t1 : Table) (rest : list Table) :
  length (merged_rows str_lower t1 rest) = merged_length str_lower t1 rest.
Proof.
  unfold merged_rows, merged_length. rewrite length_app. f_equal.
  set (len := fun t : Table =>
                length t - (if header_match str_lower t1 t then 1 else 0)).
  induction rest as [|t rest IH]; [reflexivity|].
  change (list_sum (map len (t :: rest)))
    with (len t + list_sum (map len rest)).
  cbn [map concat]. rewrite length_app, IH. f_equal.
  unfold len. destruct (header_match str_lower t1 t).
  - apply length_skipn.
  - lia.
Qed.

(* ===================================================================== *)
(** ** The page loop of the primary extractor *)
(* ===================================================================== *)

Lemma pages_loop_ok (pages : list (list Table)) :
  forall page_num all_rows processed,
    pages_loop str_lower page_num (ok_pages pages) all_rows processed =
    (map ExtractTables (seq page_num (length pages)),
     inr (camelot_tables_loop str_lower (concat pages) all_rows,
          processed + pages_with_tables pages)).
Proof.
  induction pages as [|tables pages IH]; intros page_num all_rows processed.
  - simpl. unfold ret, pages_with_tables. simpl. now rewrite Nat.add_0_r.
  - cbn [ok_pages map pages_loop call bind concat length seq].
    rewrite camelot_loop_app.
    destruct tables as [|t tables].
    + cbn [truthy negb]. fold (ok_pages pages). rewrite IH. reflexivity.
    + cbn [truthy negb]. fold (ok_pages pages). rewrite IH.
      rewrite pdfplumber_loop_camelot.
      unfold pages_with_tables. cbn [filter truthy length app].
      do 2 f_equal. f_equal. lia.
Qed.

Lemma camelot_filter_idempotent (rows : list Row) :
  camelot_filter (camelot_filter rows) = camelot_filter rows.
Proof.
  apply camelot_filter_surviving_rows, camelot_filter_has_text.
Qed.

(** The loop sees only the surviving tables of its input. *)
Lemma camelot_loop_raw (tables : list Table) :
  forall all_rows,
    camelot_tables_loop str_lower tables all_rows =
    camelot_tables_loop str_lower (surviving_tables tables) all_rows.
Proof.
  induction tables as [|t tables IH]; intros all_rows; [reflexivity|].
  unfold surviving_tables. cbn [map filter camelot_tables_loop].
  destruct (length (camelot_filter t) <? 2) eqn:E; cbn [negb].
  - apply IH.
  - cbn [camelot_tables_loop].
    rewrite camelot_filter_idempotent, E. apply IH.
Qed.

Lemma surviving_tables_surviving (tables : list Table) :
  Forall surviving (surviving_tables tables).
Proof.
  apply Forall_forall. intros t Hin.
  apply filter_In in Hin. destruct Hin as [Hin Hlen].
  apply in_map_iff in Hin. destruct Hin as [t0 [<- _]].
  split; [apply camelot_filter_has_text|].
  destruct (Nat.ltb_spec (length (camelot_filter t0)) 2); [discriminate|lia].
Qed.

(** The rows either extractor accumulates from raw tables are the merged
    rows of the surviving tables among them. *)
Lemma extractors_merge_surviving_tables
    (pages : list (list Table)) (t1 : Table) (rest : list Table) :
  surviving_tables (concat pages) = t1 :: rest ->
  outcome (pages_loop str_lower 1 (ok_pages pages) [] 0) =
    inr (merged_rows str_lower t1 rest, pages_with_tables pages)
  /\ camelot_tables_loop str_lower (concat pages) [] =
     merged_rows str_lower t1 rest.
Proof.
  intros Hs.
  assert (Hloop : camelot_tables_loop str_lower (concat pages) [] =
                  merged_rows str_lower t1 rest).
  { rewrite camelot_loop_raw, Hs. apply camelot_loop_surviving.
    rewrite <- Hs. apply surviving_tables_surviving. }
  split; [|exact Hloop].
  rewrite pages_loop_ok. unfold outcome. cbn [snd]. now rewrite Hloop.
Qed.

(** C3. For surviving tables [t1 :: rest], however they are spread over
    the pages, both extractors accumulate [t1] followed by the later tables
    in their order, each with its rows in their order and without its first
    row when that row matches the first row of [t1]; the length of this
    sequence is len(t1) plus, for each later table, its length minus one on
    a header match. *)
Theorem table_merger_rows
    (pages : list (list Table)) (t1 : Table) (rest : list Table) :
  Forall surviving (t1 :: rest) ->
  concat pages = t1 :: rest ->
  outcome (pages_loop str_lower 1 (ok_pages pages) [] 0) =
    inr (merged_rows str_lower t1 rest, pages_with_tables pages)
  /\ camelot_tables_loop str_lower (t1 :: rest) [] =
     merged_rows str_lower t1 rest
  /\ length (merged_rows str_lower t1 rest) = merged_length str_lower t1 rest.
Proof.
  intros Hs Hpages. split; [|split].
  - rewrite pages_loop_ok. unfold outcome. cbn [snd].
    rewrite Hpages, (camelot_loop_surviving t1 rest Hs). reflexivity.
  - apply camelot_loop_surviving, Hs.
  - apply merged_rows_length.
Qed.

(* ===================================================================== *)
(** ** Computations: traces and outcomes *)
(* ===================================================================== *)

Lemma trace_bind {A B : Type} (m : M A) (k : A -> M B) :
  trace (bind m k) =
  trace m ++ match outcome m with inl _ => [] | inr a => trace (k a) end.
Proof.
  destruct m as [t [e|a]]; simpl.
  - now rewrite app_nil_r.
  - now destruct (k a).
Qed.

Lemma outcome_bind {A B : Type} (m : M A) (k : A -> M B) :
  outcome (bind m k) =
  match outcome m with inl e => inl e | inr a => outcome (k a) end.
Proof.
  destruct m as [t [e|a]]; simpl; [reflexivity|]. now destruct (k a).
Qed.

Lemma fallback_invoked_app (a b : list event) :
  fallback_invoked (a ++ b) = fallback_invoked a || fallback_invoked b.
Proof. apply existsb_app. Qed.

Lemma pages_loop_trace (pages : list (exn + list Table)) :
  forall page_num all_rows processed,
    fallback_invoked
      (trace (pages_loop str_lower page_num pages all_rows processed)) = false.
Proof.
  induction pages as [|page pages IH]; intros page_num all_rows processed.
  - reflexivity.
  - cbn [pages_loop]. rewrite trace_bind, fallback_invoked_app.
    unfold call, outcome. cbn [trace fst snd fallback_invoked existsb
                              is_camelot_event orb].
    destruct page as [e|tables]; [reflexivity|].
    destruct (negb (truthy tables)); apply IH.
Qed.

Lemma pdfplumber_trace (doc : document) :
  exists t, trace (extract_with_pdfplumber str_lower doc) = PdfplumberOpen :: t
            /\ fallback_invoked (PdfplumberOpen :: t) = false.
Proof.
  unfold extract_with_pdfplumber. rewrite trace_bind.
  unfold call, outcome. cbn [trace fst snd app].
  eexists. split; [reflexivity|].
  cbn [fallback_invoked existsb is_camelot_event orb].
  destruct (pdf_pages doc) as [e|pages]; [reflexivity|].
  rewrite trace_bind, fallback_invoked_app, pages_loop_trace.
  destruct (outcome _) as [e|[all_rows processed]]; reflexivity.
Qed.

Lemma camelot_trace (doc : document) :
  exists t,
    trace (extract_with_camelot str_lower doc) = CamelotReadPdf Lattice :: t.
Proof.
  unfold extract_with_camelot, camelot_read, try_except, call.
  rewrite trace_bind.
  destruct (read_pdf_lattice doc); cbn [trace fst app]; eexists; reflexivity.
Qed.

(* ===================================================================== *)
(** ** Strategy Selector *)
(* ===================================================================== *)

Lemma parse_pdf_eq (doc : document) :
  parse_pdf str_lower doc =
  (trace (select_strategy str_lower doc),
   respond (outcome (select_strategy str_lower doc))).
Proof. unfold parse_pdf. now destruct (select_strategy str_lower doc). Qed.

(** C1. The primary extractor runs first. The fallback extractor is invoked
    exactly when the primary extractor returns a result with fewer than two
    rows; then the response is the fallback's, whatever it is, and with two
    rows or more the response is the primary result and no camelot call is
    made. *)
Theorem fallback_iff_primary_short (doc : document) :
  (exists t t',
      trace (extract_with_pdfplumber str_lower doc) = PdfplumberOpen :: t
      /\ fst (parse_pdf str_lower doc) = PdfplumberOpen :: t ++ t'
      /\ fallback_invoked (PdfplumberOpen :: t) = false)
  /\ (fallback_invoked (fst (parse_pdf str_lower doc)) = true <->
      exists r, outcome (extract_with_pdfplumber str_lower doc) = inr r
                /\ length (rows r) < 2)
  /\ (forall r,
        outcome (extract_with_pdfplumber str_lower doc) = inr r ->
        length (rows r) < 2 ->
        parse_pdf str_lower doc =
        (trace (extract_with_pdfplumber str_lower doc) ++
         trace (extract_with_camelot str_lower doc),
         respond (outcome (extract_with_camelot str_lower doc))))
  /\ (forall r,
        outcome (extract_with_pdfplumber str_lower doc) = inr r ->
        2 <= length (rows r) ->
        parse_pdf str_lower doc =
        (trace (extract_with_pdfplumber str_lower doc), Json200 r)).
Proof.
  rewrite parse_pdf_eq. cbn [fst].
  unfold select_strategy. rewrite trace_bind, outcome_bind.
  destruct (pdfplumber_trace doc) as [t [Ht Hno]].
  destruct (camelot_trace doc) as [tc Htc].
  rewrite Ht.
  destruct (outcome (extract_with_pdfplumber str_lower doc)) as [e|r] eqn:Ho.
  - split; [|split; [|split]].
    + exists t, []. repeat split. exact Hno.
    + rewrite app_nil_r, Hno. split; [discriminate|].
      intros [r [Hr _]]. discriminate.
    + intros r Hr. discriminate.
    + intros r Hr. discriminate.
  - destruct (Nat.ltb_spec (length (rows r)) 2) as [Hlt|Hge].
    + split; [|split; [|split]].
      * exists t. eexists. split; [reflexivity|]. split; [reflexivity|exact Hno].
      * rewrite Htc, fallback_invoked_app, Hno.
        split; [|reflexivity]. intros _. now exists r.
      * intros r' Hr' _. reflexivity.
      * intros r' Hr' Hge. injection Hr' as <-. lia.
    + split; [|split; [|split]].
      * exists t, []. repeat split. exact Hno.
      * cbn [ret trace fst]. rewrite app_nil_r, Hno. split; [discriminate|].
        intros [r' [Hr' Hlt]]. injection Hr' as <-. lia.
      * intros r' Hr' Hlt. injection Hr' as <-. lia.
      * intros r' Hr' _. injection Hr' as <-.
        cbn [ret trace fst outcome snd respond]. now rewrite app_nil_r.
Qed.

(* ===================================================================== *)
(** ** Primary extractor: pages processed *)
(* ===================================================================== *)

Lemma extract_with_pdfplumber_ok (doc : document) (pages : list (list Table)) :
  pdf_pages doc = inr (ok_pages pages) ->
  extract_with_pdfplumber str_lower doc =
  (PdfplumberOpen :: map ExtractTables (seq 1 (length pages)),
   inr {| rows := clean_rows (camelot_tables_loop str_lower (concat pages) []);
          pages_processed := pages_with_tables pages;
          method_used := lit "pdfplumber";
          total_rows :=
            length (camelot_tables_loop str_lower (concat pages) []) |}).
Proof.
  intros Hp. unfold extract_with_pdfplumber. rewrite Hp.
  unfold call. cbn [bind]. rewrite pages_loop_ok.
  cbn [bind ret app]. now rewrite app_nil_r.
Qed.

Lemma surviving_pages_le (pages : list (list Table)) :
  surviving_pages pages <= pages_with_tables pages.
Proof.
  unfold surviving_pages, pages_with_tables.
  induction pages as [|tables pages IH]; [reflexivity|].
  destruct tables as [|t tables]; [exact IH|].
  cbn [filter truthy length].
  destruct (page_yields_surviving (t :: tables)); cbn [length]; lia.
Qed.

(** C2, as the code has it. In the primary extractor [pages_processed] is
    the number of pages on which [extract_tables] found at least one table,
    whether or not a table of the page passes the size filter; it is at
    least the number of pages that yielded a surviving table. *)
Theorem pages_processed_counts_pages_with_tables
    (doc : document) (pages : list (list Table)) :
  pdf_pages doc = inr (ok_pages pages) ->
  exists r,
    outcome (extract_with_pdfplumber str_lower doc) = inr r
    /\ pages_processed r = pages_with_tables pages
    /\ surviving_pages pages <= pages_processed r.
Proof.
  intros Hp. rewrite (extract_with_pdfplumber_ok doc pages Hp).
  eexists. split; [reflexivity|]. split; [reflexivity|].
  apply surviving_pages_le.
Qed.

(* ===================================================================== *)
(** ** Fallback extractor *)
(* ===================================================================== *)

(** C6. When camelot finds no table the fallback extractor returns exactly
    the empty camelot result; and for the tables it finds,
    [pages_processed] is the number of tables. *)
Theorem camelot_pages_are_tables (doc : document) (tables : list Table) :
  outcome (camelot_read doc) = inr tables ->
  exists r,
    outcome (extract_with_camelot str_lower doc) = inr r
    /\ pages_processed r = length tables
    /\ method_used r = lit "camelot"
    /\ (tables = [] -> r = empty_camelot_result).
Proof.
  intros Hread. unfold extract_with_camelot.
  rewrite outcome_bind, Hread. cbn [ret outcome snd].
  eexists. split; [reflexivity|].
  unfold camelot_result. destruct tables as [|t tables]; cbn [truthy negb].
  - repeat split.
  - repeat split. discriminate.
Qed.

(** C7. When lattice mode raises, stream mode is called and the fallback
    extractor's outcome is the one computed from what stream mode gives:
    the result built from its tables. *)
Theorem lattice_failure_falls_through (doc : document) (e : exn) :
  read_pdf_lattice doc = inl e ->
  extract_with_camelot str_lower doc =
  ([CamelotReadPdf Lattice; CamelotReadPdf Stream],
   match read_pdf_stream doc with
   | inl e' => inl e'
   | inr tables => inr (camelot_result str_lower tables)
   end).
Proof.
  intros Hl. unfold extract_with_camelot, camelot_read, try_except, call.
  rewrite Hl. now destruct (read_pdf_stream doc).
Qed.

(* ===================================================================== *)
(** ** Cleaning drops no merged row *)
(* ===================================================================== *)

Lemma has_text_survives (row : Row) :
  row_has_text row = true -> existsb truthy (map clean_cell row) = true.
Proof.
  unfold row_has_text. induction row as [|cell row IH]; simpl; [trivial|].
  intros H. apply orb_true_iff in H. apply orb_true_iff.
  destruct H as [H|H]; [left|right; now apply IH].
  unfold cell_has_text in H. apply andb_true_iff in H.
  destruct H as [Hc Hs]. now destruct cell.
Qed.

Lemma clean_rows_loop_length (rs : list Row) :
  rows_have_text rs ->
  forall cleaned,
    length (clean_rows_loop rs cleaned) = length cleaned + length rs.
Proof.
  induction 1 as [|row rs Hrow _ IH]; intros cleaned; simpl; [lia|].
  rewrite (has_text_survives row Hrow), IH, length_app. simpl. lia.
Qed.

Lemma merge_table_has_text (all_rows filtered_rows : list Row) :
  rows_have_text all_rows ->
  rows_have_text filtered_rows ->
  rows_have_text (merge_table str_lower all_rows filtered_rows).
Proof.
  intros Ha Hf. unfold merge_table, rows_have_text.
  assert (Hskip : rows_have_text (skipn 1 filtered_rows)).
  { destruct Hf; [constructor|assumption]. }
  destruct (negb (truthy all_rows)); [now apply Forall_app|].
  destruct (is_header_row _ _ _); now apply Forall_app.
Qed.

Lemma camelot_loop_has_text (tables : list Table) :
  forall all_rows,
    rows_have_text all_rows ->
    rows_have_text (camelot_tables_loop str_lower tables all_rows).
Proof.
  induction tables as [|t tables IH]; intros all_rows Ha; simpl; [exact Ha|].
  destruct (length (camelot_filter t) <? 2); apply IH; [exact Ha|].
  apply merge_table_has_text; [exact Ha|apply camelot_filter_has_text].
Qed.

Lemma pages_loop_has_text (pages : list (exn + list Table)) :
  forall page_num all_rows processed rs n,
    rows_have_text all_rows ->
    outcome (pages_loop str_lower page_num pages all_rows processed) =
      inr (rs, n) ->
    rows_have_text rs.
Proof.
  induction pages as [|page pages IH];
    intros page_num all_rows processed rs n Ha Hout.
  - injection Hout as <- _. exact Ha.
  - cbn [pages_loop] in Hout. rewrite outcome_bind in Hout.
    destruct page as [e|tables]; [discriminate|].
    cbn [call outcome snd] in Hout.
    destruct (negb (truthy tables)).
    + exact (IH _ _ _ _ _ Ha Hout).
    + refine (IH _ _ _ _ _ _ Hout).
      rewrite pdfplumber_loop_camelot. now apply camelot_loop_has_text.
Qed.

(** C10. In every result either extractor returns, the number of cleaned
    rows is [total_rows]: each merged row passed the extractor's row filter,
    so the Row Cleaner keeps it. *)
Theorem cleaned_count_is_total (doc : document) (r : extraction_result) :
  outcome (extract_with_pdfplumber str_lower doc) = inr r \/
  outcome (extract_with_camelot str_lower doc) = inr r ->
  length (rows r) = total_rows r.
Proof.
  intros [H|H].
  - unfold extract_with_pdfplumber in H.
    rewrite outcome_bind in H.
    destruct (pdf_pages doc) as [e|pages]; [discriminate|].
    cbn [call outcome snd] in H. rewrite outcome_bind in H.
    destruct (outcome (pages_loop str_lower 1 pages [] 0))
      as [e|[all_rows processed]] eqn:Hloop; [discriminate|].
    injection H as <-. cbn [rows total_rows].
    apply pages_loop_has_text in Hloop; [|constructor].
    unfold clean_rows. now rewrite clean_rows_loop_length.
  - unfold extract_with_camelot in H. rewrite outcome_bind in H.
    destruct (outcome (camelot_read doc)) as [e|tables]; [discriminate|].
    injection H as <-. unfold camelot_result.
    destruct (negb (truthy tables)); [reflexivity|].
    cbn [rows total_rows]. unfold clean_rows.
    rewrite clean_rows_loop_length; [reflexivity|].
    apply camelot_loop_has_text. constructor.
Qed.

End ParserProofs.

(* ===================================================================== *)
(** ** The sample documents, run *)
(* ===================================================================== *)

Example statement_doc_parsed :
  parse_pdf ascii_lower statement_doc =
  ([PdfplumberOpen; ExtractTables 1; ExtractTables 2],
   Json200
     {| rows :=
          [ [lit "Date"; lit "Description"; lit "Amount"];
            [lit "01/01/2024"; lit "AWS SERVICES"; lit "3500.00"];
            [lit "02/01/2024"; lit "RENT"; lit "12000.00"];
            [lit "03/01/2024"; lit "SALARY"; lit ""] ];
        pages_processed := 2;
        method_used := lit "pdfplumber";
        total_rows := 4 |}).
Proof. vm_compute. reflexivity. Qed.

Example footer_doc_parsed :
  fst (parse_pdf ascii_lower footer_doc) =
  [PdfplumberOpen; ExtractTables 1; CamelotReadPdf Lattice;
   CamelotReadPdf Stream].
Proof. vm_compute. reflexivity. Qed.

Lemma is_header_row_self_witness :
  [txt "Date"; None] <> [] /\
  is_header_row ascii_lower [txt "Date"; None] [txt "Date"; None] = true.
Proof.
  split; [discriminate|].
  apply (is_header_row_self ascii_lower [txt "Date"; None]). discriminate.
Defined.

Lemma sample_tables_surviving : Forall surviving [page1_table; page2_rows].
Proof.
  repeat constructor.
Defined.

Lemma table_merger_rows_witness :
  outcome (pages_loop ascii_lower 1
             (ok_pages [[page1_table]; []; [page2_rows]]) [] 0) =
    inr (merged_rows ascii_lower page1_table [page2_rows], 2)
  /\ camelot_tables_loop ascii_lower [page1_table; page2_rows] [] =
     merged_rows ascii_lower page1_table [page2_rows]
  /\ length (merged_rows ascii_lower page1_table [page2_rows]) = 3 + (2 - 1).
Proof.
  apply (table_merger_rows ascii_lower
           [[page1_table]; []; [page2_rows]] page1_table [page2_rows]).
  - exact sample_tables_surviving.
  - reflexivity.
Defined.

(** C2, as stated, fails: the only page of [footer_doc] has one table, which
    the size filter discards, and the page is counted all the same. *)
Lemma footer_page_is_counted :
  pdf_pages footer_doc = inr (ok_pages [[footer_table]])
  /\ surviving_pages [[footer_table]] = 0
  /\ exists r,
       outcome (extract_with_pdfplumber ascii_lower footer_doc) = inr r
       /\ pages_processed r = 1
       /\ pages_processed r <> surviving_pages [[footer_table]].
Proof.
  split; [reflexivity|]. split; [reflexivity|].
  eexists. split; [vm_compute; reflexivity|].
  split; [reflexivity|discriminate].
Qed.

Lemma pages_processed_witness :
  exists r,
    outcome (extract_with_pdfplumber ascii_lower statement_doc) = inr r
    /\ pages_processed r = 2
    /\ surviving_pages [[page1_table]; [page2_table]] <= pages_processed r.
Proof.
  apply (pages_processed_counts_pages_with_tables ascii_lower statement_doc
           [[page1_table]; [page2_table]]).
  reflexivity.
Defined.

Lemma camelot_pages_are_tables_witness :
  exists r,
    outcome (extract_with_camelot ascii_lower footer_doc) = inr r
    /\ pages_processed r = 2
    /\ method_used r = lit "camelot"
    /\ ([page1_table; page2_table] = [] -> r = empty_camelot_result).
Proof.
  apply (camelot_pages_are_tables ascii_lower footer_doc
           [page1_table; page2_table]).
  reflexivity.
Defined.

Lemma lattice_failure_witness :
  extract_with_camelot ascii_lower footer_doc =
  ([CamelotReadPdf Lattice; CamelotReadPdf Stream],
   inr (camelot_result ascii_lower [page1_table; page2_table])).
Proof.
  apply (lattice_failure_falls_through ascii_lower footer_doc
           (lit "no grid lines")).
  reflexivity.
Defined.

Lemma cleaned_count_witness :
  exists r,
    outcome (extract_with_camelot ascii_lower footer_doc) = inr r
    /\ total_rows r = 4
    /\ length (rows r) = total_rows r.
Proof.
  eexists. split; [vm_compute; reflexivity|]. split; [reflexivity|].
  apply (cleaned_count_is_total ascii_lower footer_doc).
  right. vm_compute. reflexivity.
Defined.

(* ===================================================================== *)
(** ** Blank strings and the rows the Row Cleaner keeps *)
(* ===================================================================== *)

Lemma lstrip_blank (s : pystr) : blank (lstrip s) = blank s.
Proof.
  induction s as [|c s IH]; [reflexivity|].
  simpl. destruct (is_space c) eqn:E; [exact IH|].
  simpl. now rewrite E.
Qed.

Lemma lstrip_nil_iff (s : pystr) : lstrip s = [] <-> blank s = true.
Proof.
  induction s as [|c s IH]; simpl; [tauto|].
  destruct (is_space c); simpl; [exact IH|].
  split; discriminate.
Qed.

Lemma blank_rev (s : pystr) : blank (rev s) = blank s.
Proof.
  unfold blank. apply eq_iff_eq_true.
  rewrite !forallb_forall. split; intros H c Hc; apply H.
  - now apply in_rev in Hc.
  - now apply in_rev.
Qed.

Lemma strip_nil_iff (s : pystr) : strip s = [] <-> blank s = true.
Proof.
  unfold strip, rstrip.
  rewrite <- lstrip_blank, <- blank_rev, <- lstrip_nil_iff.
  split; intros H.
  - apply (f_equal (@rev N)) in H. now rewrite rev_involutive in H.
  - now rewrite H.
Qed.

Lemma truthy_strip (s : pystr) : truthy (strip s) = negb (blank s).
Proof.
  destruct (blank s) eqn:E.
  - apply strip_nil_iff in E. now rewrite E.
  - destruct (strip s) eqn:Es; [|reflexivity].
    apply strip_nil_iff in Es. congruence.
Qed.

Lemma clean_cell_truthy (cell : Cell) :
  truthy (clean_cell cell) = negb (cell_blank cell).
Proof. destruct cell as [s|]; [apply truthy_strip|reflexivity]. Qed.

Lemma cell_has_text_blank (cell : Cell) :
  cell_has_text cell = negb (cell_blank cell).
Proof.
  destruct cell as [s|]; [|reflexivity].
  unfold cell_has_text. cbn [cell_truthy py_str cell_blank].
  rewrite truthy_strip. destruct s; reflexivity.
Qed.

Lemma row_has_text_blank (row : Row) :
  row_has_text row = negb (row_blank row).
Proof.
  unfold row_has_text, row_blank.
  induction row as [|cell row IH]; [reflexivity|].
  cbn [existsb forallb]. rewrite IH, cell_has_text_blank.
  now rewrite negb_andb.
Qed.

Lemma cleaned_row_kept (row : Row) :
  existsb truthy (map clean_cell row) = row_has_text row.
Proof.
  unfold row_has_text.
  induction row as [|cell row IH]; [reflexivity|].
  cbn [map existsb]. now rewrite IH, clean_cell_truthy, cell_has_text_blank.
Qed.

Lemma clean_rows_cons (row : Row) (rs : list Row) :
  clean_rows (row :: rs) =
  (if row_has_text row then [map clean_cell row] else []) ++ clean_rows rs.
Proof.
  unfold clean_rows. cbn [clean_rows_loop].
  rewrite cleaned_row_kept.
  destruct (row_has_text row); [|reflexivity].
  now rewrite clean_rows_loop_spec, (clean_rows_loop_spec rs []).
Qed.

Lemma clean_rows_camelot_filter (rs : list Row) :
  clean_rows rs = map (map clean_cell) (camelot_filter rs).
Proof.
  induction rs as [|row rs IH]; [reflexivity|].
  rewrite clean_rows_cons, IH. unfold camelot_filter. cbn [filter].
  fold (row_has_text row). now destruct (row_has_text row).
Qed.

(** X1. The Row Cleaner keeps exactly the rows the extractors' row filter
    keeps: cleaning is filtering as the extractors do, then cleaning every
    cell. *)
Theorem clean_rows_is_filter_then_clean (rs : list Row) :
  clean_rows rs = map (map clean_cell) (camelot_filter rs)
  /\ clean_rows rs = map (map clean_cell) (pdfplumber_filter rs).
Proof.
  split; [apply clean_rows_camelot_filter|].
  rewrite pdfplumber_filter_camelot. apply clean_rows_camelot_filter.
Qed.

(** X2. The Row Cleaner returns the empty sequence exactly when every cell
    of every row is [None] or white space only. *)
Theorem clean_rows_nil_iff (rs : list Row) :
  clean_rows rs = [] <-> Forall (fun row => row_blank row = true) rs.
Proof.
  induction rs as [|row rs IH].
  - split; [constructor|reflexivity].
  - rewrite clean_rows_cons, row_has_text_blank.
    destruct (row_blank row) eqn:E; cbn [negb app].
    + rewrite IH. split; intros H.
      * now constructor.
      * now inversion H.
    + split; [discriminate|]. intros H. inversion H. congruence.
Qed.

(** X3. Cleaning distributes over concatenation: the rows of two blocks
    can be cleaned apart or together. *)
Theorem clean_rows_app (a b : list Row) :
  clean_rows (a ++ b) = clean_rows a ++ clean_rows b.
Proof.
  rewrite !clean_rows_refines. unfold clean_rows_spec.
  now rewrite map_app, filter_app.
Qed.

Section MoreProofs.

Variable str_lower : pystr -> pystr.

(* ===================================================================== *)
(** ** Header Deduplicator: what a match needs *)
(* ===================================================================== *)

(** X4. The Header Deduplicator is symmetric in its two rows. *)
Theorem is_header_row_symmetric (row header_row : Row) :
  is_header_row str_lower row header_row =
  is_header_row str_lower header_row row.
Proof.
  apply eq_iff_eq_true. rewrite !is_header_row_positions.
  split; intros [i [Hi Hk]]; exists i; (split; [lia|now symmetry]).
Qed.

(** X5. Only the first three cells of each row are looked at. *)
Theorem is_header_row_first_three (row header_row : Row) :
  is_header_row str_lower row header_row =
  is_header_row str_lower (firstn 3 row) (firstn 3 header_row).
Proof.
  apply eq_iff_eq_true. rewrite !is_header_row_positions.
  rewrite !length_firstn.
  split; intros [i [Hi Hk]]; exists i; (split; [lia|]).
  - rewrite !nth_firstn.
    destruct (Nat.ltb_spec i 3); [exact Hk|lia].
  - rewrite !nth_firstn in Hk.
    destruct (Nat.ltb_spec i 3); [exact Hk|lia].
Qed.

(** X6. One position among the first three where the two cells have the
    same trimmed text makes a header match, whatever the other cells hold:
    two blank cells, or two [None] cells, are enough. *)
Theorem is_header_row_one_match
    (row header_row : Row) (i : nat) (c c' : option pystr) :
  i < 3 ->
  nth_error row i = Some c ->
  nth_error header_row i = Some c' ->
  strip (py_str c) = strip (py_str c') ->
  is_header_row str_lower row header_row = true.
Proof.
  intros Hi Hr Hh Hs. apply is_header_row_positions. exists i.
  assert (Hlr : i < length row) by (apply nth_error_Some; congruence).
  assert (Hlh : i < length header_row) by (apply nth_error_Some; congruence).
  split; [lia|].
  unfold header_key.
  rewrite (nth_error_nth row i None Hr), (nth_error_nth header_row i None Hh).
  now rewrite Hs.
Qed.

(* ===================================================================== *)
(** ** What the loops keep *)
(* ===================================================================== *)

Lemma merge_table_appends (all_rows filtered_rows : list Row) :
  exists suffix, merge_table str_lower all_rows filtered_rows = all_rows ++ suffix.
Proof.
  unfold merge_table.
  destruct (negb (truthy all_rows)); [now eexists|].
  destruct (is_header_row _ _ _); now eexists.
Qed.

Lemma camelot_loop_appends (tables : list Table) :
  forall all_rows,
    exists suffix,
      camelot_tables_loop str_lower tables all_rows = all_rows ++ suffix.
Proof.
  induction tables as [|t tables IH]; intros all_rows.
  - exists []. simpl. now rewrite app_nil_r.
  - cbn [camelot_tables_loop].
    destruct (length (camelot_filter t) <? 2); [apply IH|].
    destruct (merge_table_appends all_rows (camelot_filter t)) as [s1 ->].
    destruct (IH (all_rows ++ s1)) as [s2 ->].
    exists (s1 ++ s2). now rewrite app_assoc.
Qed.

(** X7. Rows once accumulated are never changed, dropped or moved by the
    tables that follow: either loop only appends, so the Header Signature,
    the first accumulated row, stays what it is. *)
Theorem accumulated_rows_are_kept (tables : list Table) (all_rows : list Row) :
  exists suffix,
    camelot_tables_loop str_lower tables all_rows = all_rows ++ suffix
    /\ pdfplumber_tables_loop str_lower tables all_rows = all_rows ++ suffix
    /\ (all_rows <> [] ->
        nth 0 (all_rows ++ suffix) [] = nth 0 all_rows []).
Proof.
  destruct (camelot_loop_appends tables all_rows) as [suffix Hs].
  exists suffix. split; [exact Hs|]. split.
  - now rewrite pdfplumber_loop_camelot.
  - intros Hne. destruct all_rows; [congruence|reflexivity].
Qed.

Lemma merge_table_never_one (all_rows filtered_rows : list Row) :
  never_one all_rows ->
  2 <= length filtered_rows ->
  never_one (merge_table str_lower all_rows filtered_rows).
Proof.
  intros [->|Ha] Hf; right.
  - exact Hf.
  - destruct (merge_table_appends all_rows filtered_rows) as [suffix ->].
    rewrite length_app. lia.
Qed.

Lemma camelot_loop_never_one (tables : list Table) :
  forall all_rows,
    never_one all_rows ->
    never_one (camelot_tables_loop str_lower tables all_rows).
Proof.
  induction tables as [|t tables IH]; intros all_rows Ha; [exact Ha|].
  cbn [camelot_tables_loop].
  destruct (Nat.ltb_spec (length (camelot_filter t)) 2); apply IH; [exact Ha|].
  now apply merge_table_never_one.
Qed.

(** What holds of the accumulated rows before the page loop and is kept by
    the tables of a page holds of the rows the page loop returns. *)
Lemma pages_loop_invariant (P : list Row -> Prop) :
  (forall tables all_rows,
      P all_rows -> P (camelot_tables_loop str_lower tables all_rows)) ->
  forall pages page_num all_rows processed rs n,
    P all_rows ->
    outcome (pages_loop str_lower page_num pages all_rows processed) =
      inr (rs, n) ->
    P rs.
Proof.
  intros Hkeep pages.
  induction pages as [|page pages IH];
    intros page_num all_rows processed rs n Ha Hout.
  - injection Hout as <- _. exact Ha.
  - cbn [pages_loop] in Hout. rewrite outcome_bind in Hout.
    destruct page as [e|tables]; [discriminate|].
    cbn [call outcome snd] in Hout.
    destruct (negb (truthy tables)).
    + exact (IH _ _ _ _ _ Ha Hout).
    + refine (IH _ _ _ _ _ _ Hout).
      rewrite pdfplumber_loop_camelot. now apply Hkeep.
Qed.

(** The rows behind a result of the primary extractor. *)
Lemma pdfplumber_result_shape (doc : document) (r : extraction_result) :
  outcome (extract_with_pdfplumber str_lower doc) = inr r ->
  exists all_rows,
    rows_have_text all_rows /\ never_one all_rows
    /\ rows r = clean_rows all_rows
    /\ total_rows r = length all_rows
    /\ method_used r = lit "pdfplumber".
Proof.
  intros H. unfold extract_with_pdfplumber in H.
  rewrite outcome_bind in H.
  destruct (pdf_pages doc) as [e|pages]; [discriminate|].
  cbn [call outcome snd] in H. rewrite outcome_bind in H.
  destruct (outcome (pages_loop str_lower 1 pages [] 0))
    as [e|[all_rows processed]] eqn:Hloop; [discriminate|].
  injection H as <-. exists all_rows.
  split; [|split; [|repeat split]].
  - apply (pages_loop_invariant rows_have_text) in Hloop;
      [exact Hloop| |constructor].
    intros tables acc. apply camelot_loop_has_text.
  - apply (pages_loop_invariant never_one) in Hloop;
      [exact Hloop| |now left].
    intros tables acc. apply camelot_loop_never_one.
Qed.

(** The rows behind a result of the fallback extractor. *)
Lemma camelot_result_shape (tables : list Table) :
  exists all_rows,
    rows_have_text all_rows /\ never_one all_rows
    /\ rows (camelot_result str_lower tables) = clean_rows all_rows
    /\ total_rows (camelot_result str_lower tables) = length all_rows
    /\ method_used (camelot_result str_lower tables) = lit "camelot".
Proof.
  unfold camelot_result. destruct tables as [|t tables]; cbn [truthy negb].
  - exists []. repeat split; [constructor|now left].
  - eexists. split; [|split; [|repeat split]].
    + apply camelot_loop_has_text. constructor.
    + apply camelot_loop_never_one. now left.
Qed.

Lemma extract_with_camelot_outcome (doc : document) (r : extraction_result) :
  outcome (extract_with_camelot str_lower doc) = inr r ->
  exists tables,
    outcome (camelot_read doc) = inr tables
    /\ r = camelot_result str_lower tables.
Proof.
  unfold extract_with_camelot. rewrite outcome_bind.
  destruct (outcome (camelot_read doc)) as [e|tables]; [discriminate|].
  intros H. injection H as <-. now exists tables.
Qed.

Lemma clean_rows_length (rs : list Row) :
  rows_have_text rs -> length (clean_rows rs) = length rs.
Proof.
  intros H. unfold clean_rows. now rewrite clean_rows_loop_length.
Qed.

(** X8. A result of either extractor never holds exactly one row: it has
    no row at all, before and after cleaning, or at least two. *)
Theorem result_never_has_one_row (doc : document) (r : extraction_result) :
  outcome (extract_with_pdfplumber str_lower doc) = inr r \/
  outcome (extract_with_camelot str_lower doc) = inr r ->
  (rows r = [] /\ total_rows r = 0)
  \/ (2 <= length (rows r) /\ 2 <= total_rows r).
Proof.
  intros H.
  assert (Hshape : exists all_rows,
             rows_have_text all_rows /\ never_one all_rows
             /\ rows r = clean_rows all_rows
             /\ total_rows r = length all_rows).
  { destruct H as [H|H].
    - destruct (pdfplumber_result_shape doc r H) as [a [H1 [H2 [H3 [H4 _]]]]].
      now exists a.
    - destruct (extract_with_camelot_outcome doc r H) as [tables [_ ->]].
      destruct (camelot_result_shape tables) as [a [H1 [H2 [H3 [H4 _]]]]].
      now exists a. }
  destruct Hshape as [a [Htext [[->|Hlen] [Hrows Htotal]]]].
  - left. now rewrite Hrows, Htotal.
  - right. rewrite Hrows, Htotal, clean_rows_length; auto.
Qed.

Lemma result_rows_never_one (doc : document) (r : extraction_result) :
  outcome (extract_with_pdfplumber str_lower doc) = inr r ->
  never_one (rows r).
Proof.
  intros H.
  destruct (pdfplumber_result_shape doc r H) as [a [Ht [[->|Hl] [Hr _]]]].
  - left. now rewrite Hr.
  - right. now rewrite Hr, clean_rows_length.
Qed.

(* ===================================================================== *)
(** ** Strategy Selector: errors and the method reported *)
(* ===================================================================== *)

Lemma select_strategy_cases (doc : document) :
  select_strategy str_lower doc =
  match outcome (extract_with_pdfplumber str_lower doc) with
  | inl e => (trace (extract_with_pdfplumber str_lower doc), inl e)
  | inr r =>
      if length (rows r) <? 2
      then (trace (extract_with_pdfplumber str_lower doc) ++
            trace (extract_with_camelot str_lower doc),
            outcome (extract_with_camelot str_lower doc))
      else (trace (extract_with_pdfplumber str_lower doc), inr r)
  end.
Proof.
  unfold select_strategy, bind, trace, outcome.
  destruct (extract_with_pdfplumber str_lower doc) as [t [e|r]];
    cbn [fst snd]; [reflexivity|].
  destruct (length (rows r) <? 2).
  - now destruct (extract_with_camelot str_lower doc).
  - unfold ret. now rewrite app_nil_r.
Qed.

Lemma pdfplumber_no_camelot_call (doc : document) :
  fallback_invoked (trace (extract_with_pdfplumber str_lower doc)) = false.
Proof.
  destruct (pdfplumber_trace str_lower doc) as [t [Ht Hno]]. now rewrite Ht.
Qed.

Lemma camelot_makes_camelot_call (doc : document) :
  fallback_invoked (trace (extract_with_camelot str_lower doc)) = true.
Proof.
  destruct (camelot_trace str_lower doc) as [t Ht]. now rewrite Ht.
Qed.

(** X9. The fallback extractor is invoked exactly when the primary
    extractor returns no row at all: a primary result with one row does not
    exist, so the test on fewer than two rows is a test on none. *)
Theorem fallback_iff_primary_empty (doc : document) :
  fallback_invoked (fst (parse_pdf str_lower doc)) = true <->
  exists r, outcome (extract_with_pdfplumber str_lower doc) = inr r
            /\ rows r = [].
Proof.
  rewrite parse_pdf_eq. cbn [fst]. unfold trace at 1.
  rewrite select_strategy_cases.
  destruct (outcome (extract_with_pdfplumber str_lower doc)) as [e|r] eqn:Ho.
  - cbn [fst]. rewrite pdfplumber_no_camelot_call.
    split; [discriminate|]. intros [r [Hr _]]. discriminate.
  - destruct (result_rows_never_one doc r Ho) as [Hnil|Hlen].
    + rewrite Hnil. cbn [length Nat.ltb Nat.leb fst].
      rewrite fallback_invoked_app, camelot_makes_camelot_call, orb_true_r.
      split; [|reflexivity]. intros _. now exists r.
    + destruct (Nat.ltb_spec (length (rows r)) 2) as [Hlt|_]; [lia|].
      cbn [fst]. rewrite pdfplumber_no_camelot_call.
      split; [discriminate|]. intros [r' [Hr' Hnil]].
      injection Hr' as <-. rewrite Hnil in Hlen. simpl in Hlen. lia.
Qed.

(** X10. When the primary extractor raises, the fallback extractor is not
    tried: the response is the error 500 with the exception's message, after
    the primary extractor's calls alone. *)
Theorem primary_exception_is_500 (doc : document) (e : exn) :
  outcome (extract_with_pdfplumber str_lower doc) = inl e ->
  parse_pdf str_lower doc =
    (trace (extract_with_pdfplumber str_lower doc),
     Json500 (lit "Failed to parse PDF: " ++ e))
  /\ fallback_invoked (fst (parse_pdf str_lower doc)) = false.
Proof.
  intros Ho. rewrite parse_pdf_eq. unfold trace at 1 3, outcome at 1.
  rewrite select_strategy_cases, Ho. cbn [fst snd respond].
  split; [reflexivity|apply pdfplumber_no_camelot_call].
Qed.

(** X11. When the primary extractor returns fewer than two rows and both
    camelot modes raise, the response is the error 500 with the message of
    stream mode: the exception of lattice mode is lost, and so is the primary
    result. *)
Theorem both_camelot_modes_raise
    (doc : document) (r : extraction_result) (e1 e2 : exn) :
  outcome (extract_with_pdfplumber str_lower doc) = inr r ->
  length (rows r) < 2 ->
  read_pdf_lattice doc = inl e1 ->
  read_pdf_stream doc = inl e2 ->
  parse_pdf str_lower doc =
    (trace (extract_with_pdfplumber str_lower doc) ++
     [CamelotReadPdf Lattice; CamelotReadPdf Stream],
     Json500 (lit "Failed to parse PDF: " ++ e2)).
Proof.
  intros Ho Hlt Hl Hs. rewrite parse_pdf_eq. unfold trace at 1, outcome at 1.
  rewrite select_strategy_cases, Ho.
  destruct (Nat.ltb_spec (length (rows r)) 2) as [_|Hge]; [|lia].
  unfold extract_with_camelot, camelot_read, try_except, call.
  rewrite Hl, Hs. reflexivity.
Qed.

(** X12. When lattice mode returns, stream mode is never called, also when
    lattice mode found no table: the result is then the empty one. *)
Theorem lattice_success_skips_stream (doc : document) (tables : list Table) :
  read_pdf_lattice doc = inr tables ->
  extract_with_camelot str_lower doc =
    ([CamelotReadPdf Lattice], inr (camelot_result str_lower tables))
  /\ (tables = [] ->
      outcome (extract_with_camelot str_lower doc) = inr empty_camelot_result).
Proof.
  intros Hl.
  assert (H : extract_with_camelot str_lower doc =
              ([CamelotReadPdf Lattice], inr (camelot_result str_lower tables))).
  { unfold extract_with_camelot, camelot_read, try_except, call.
    now rewrite Hl. }
  split; [exact H|]. intros ->. now rewrite H.
Qed.

Lemma pages_loop_raises (pre : list (list Table)) (e : exn)
    (rest : list (exn + list Table)) :
  forall page_num all_rows processed,
    pages_loop str_lower page_num (ok_pages pre ++ inl e :: rest)
      all_rows processed =
    (map ExtractTables (seq page_num (S (length pre))), inl e).
Proof.
  induction pre as [|tables pre IH]; intros page_num all_rows processed.
  - reflexivity.
  - cbn [ok_pages map app pages_loop call bind length seq].
    fold (ok_pages pre).
    destruct (negb (truthy tables)); now rewrite IH.
Qed.

(** X13. A page on which [extract_tables] raises ends the primary
    extraction with that exception: the pages after it are not read and the
    rows of the pages before it are lost. *)
Theorem raising_page_aborts
    (doc : document) (pre : list (list Table)) (e : exn)
    (rest : list (exn + list Table)) :
  pdf_pages doc = inr (ok_pages pre ++ inl e :: rest) ->
  extract_with_pdfplumber str_lower doc =
    (PdfplumberOpen :: map ExtractTables (seq 1 (S (length pre))), inl e).
Proof.
  intros Hp. unfold extract_with_pdfplumber. rewrite Hp.
  unfold call. cbn [bind]. now rewrite pages_loop_raises.
Qed.

(** X14. A response with a result names the extractor that made it: the
    method is pdfplumber, with two rows at least and no camelot call made,
    or it is camelot and camelot was called. *)
Theorem response_names_its_method (doc : document) (r : extraction_result) :
  snd (parse_pdf str_lower doc) = Json200 r ->
  (method_used r = lit "pdfplumber"
   /\ 2 <= length (rows r)
   /\ fallback_invoked (fst (parse_pdf str_lower doc)) = false)
  \/ (method_used r = lit "camelot"
      /\ fallback_invoked (fst (parse_pdf str_lower doc)) = true).
Proof.
  rewrite parse_pdf_eq. cbn [fst snd]. unfold trace at 1 2, outcome at 1.
  rewrite select_strategy_cases.
  destruct (outcome (extract_with_pdfplumber str_lower doc)) as [e|r0] eqn:Ho;
    [discriminate|].
  destruct (Nat.ltb_spec (length (rows r0)) 2) as [Hlt|Hge]; cbn [fst snd].
  - destruct (outcome (extract_with_camelot str_lower doc)) as [e|r1] eqn:Hc;
      [discriminate|].
    intros H. injection H as <-. right.
    destruct (extract_with_camelot_outcome doc r1 Hc) as [tables [_ ->]].
    destruct (camelot_result_shape tables) as [a [_ [_ [_ [_ Hm]]]]].
    split; [exact Hm|].
    now rewrite fallback_invoked_app, camelot_makes_camelot_call, orb_true_r.
  - intros H. injection H as <-. left.
    destruct (pdfplumber_result_shape doc r0 Ho) as [a [_ [_ [_ [_ Hm]]]]].
    split; [exact Hm|]. split; [exact Hge|apply pdfplumber_no_camelot_call].
Qed.

(* ===================================================================== *)
(** ** The two extractors on the same tables *)
(* ===================================================================== *)

Lemma clean_rows_with_text (rs : list Row) :
  rows_have_text rs -> clean_rows rs = map (map clean_cell) rs.
Proof.
  intros H. rewrite clean_rows_camelot_filter.
  now rewrite camelot_filter_surviving_rows.
Qed.

(** X15. On the same tables the two extractors return the same rows and
    the same [total_rows], however the tables are spread over the pages:
    their row filters and their merges agree. *)
Theorem extractors_agree (doc : document) (pages : list (list Table)) :
  pdf_pages doc = inr (ok_pages pages) ->
  outcome (camelot_read doc) = inr (concat pages) ->
  exists r1 r2,
    outcome (extract_with_pdfplumber str_lower doc) = inr r1
    /\ outcome (extract_with_camelot str_lower doc) = inr r2
    /\ rows r1 = rows r2
    /\ total_rows r1 = total_rows r2.
Proof.
  intros Hp Hc.
  rewrite (extract_with_pdfplumber_ok str_lower doc pages Hp).
  unfold extract_with_camelot. rewrite outcome_bind, Hc.
  do 2 eexists. split; [reflexivity|]. split; [reflexivity|].
  unfold camelot_result.
  destruct (concat pages) as [|t tables]; cbn [truthy negb rows total_rows];
    split; reflexivity.
Qed.

(** X16. The result of the primary extractor on a readable document with a
    surviving table: its rows are the merged rows of the surviving tables,
    every cell cleaned and no row dropped, and [total_rows] is their
    number. *)
Theorem primary_result_is_cleaned_merge
    (doc : document) (pages : list (list Table))
    (t1 : Table) (rest : list Table) :
  pdf_pages doc = inr (ok_pages pages) ->
  surviving_tables (concat pages) = t1 :: rest ->
  exists r,
    outcome (extract_with_pdfplumber str_lower doc) = inr r
    /\ rows r = map (map clean_cell) (merged_rows str_lower t1 rest)
    /\ total_rows r = merged_length str_lower t1 rest
    /\ length (rows r) = merged_length str_lower t1 rest.
Proof.
  intros Hp Hs.
  rewrite (extract_with_pdfplumber_ok str_lower doc pages Hp).
  destruct (extractors_merge_surviving_tables str_lower pages t1 rest Hs)
    as [_ Hm].
  eexists. split; [reflexivity|]. cbn [rows total_rows]. rewrite Hm.
  assert (Ht : rows_have_text (merged_rows str_lower t1 rest)).
  { rewrite <- Hm. apply camelot_loop_has_text. constructor. }
  rewrite (clean_rows_with_text _ Ht), length_map, merged_rows_length.
  repeat split.
Qed.

Lemma merged_length_bounds (t1 : Table) (rest : list Table) :
  merged_length str_lower t1 rest <= length t1 + list_sum (map (@length _) rest)
  /\ length t1 + list_sum (map (@length _) rest) <=
     merged_length str_lower t1 rest + length rest.
Proof.
  unfold merged_length.
  induction rest as [|t rest [IH1 IH2]]; [simpl; lia|].
  cbn [map length].
  change (list_sum (?x :: ?l)) with (x + list_sum l).
  set (a := list_sum (map _ rest)) in *.
  set (b := list_sum (map _ rest)) in *.
  destruct (header_match str_lower t1 t); lia.
Qed.

(** X20. Merging loses at most one row for each surviving table after the
    first and adds none: the accumulated rows of either extractor number at
    most the rows of the surviving tables, and at least that many less one
    for each table after the first. *)
Theorem merge_drops_at_most_headers (tables : list Table) :
  length (camelot_tables_loop str_lower tables []) <=
    list_sum (map (@length _) (surviving_tables tables))
  /\ list_sum (map (@length _) (surviving_tables tables)) <=
     length (camelot_tables_loop str_lower tables []) +
     (length (surviving_tables tables) - 1)
  /\ pdfplumber_tables_loop str_lower tables [] =
     camelot_tables_loop str_lower tables [].
Proof.
  split; [|split; [|apply pdfplumber_loop_camelot]];
    rewrite camelot_loop_raw;
    pose proof (surviving_tables_surviving tables) as Hs;
    destruct (surviving_tables tables) as [|t1 rest]; try (simpl; lia);
    rewrite (camelot_loop_surviving str_lower t1 rest Hs), merged_rows_length;
    destruct (merged_length_bounds t1 rest) as [H1 H2];
    change (list_sum (map (@length _) (t1 :: rest)))
      with (length t1 + list_sum (map (@length _) rest));
    cbn [length]; lia.
Qed.

(* ===================================================================== *)
(** ** The route *)
(* ===================================================================== *)

Lemma parse_pdf_route_accepted (file : upload) :
  accepted_name str_lower (filename file) = true ->
  parse_pdf_route str_lower (Some file) =
  match save_outcome file with
  | inl e => ([TmpCreate; FileSave], inl e)
  | inr _ =>
      ([TmpCreate; FileSave] ++
       map Lib (fst (parse_pdf str_lower (saved file))) ++
       log_of (outcome (select_strategy str_lower (saved file))) ++
       cleanup file,
       inr (reply_of (snd (parse_pdf str_lower (saved file)))))
  end.
Proof.
  unfold accepted_name. intros H. apply andb_true_iff in H.
  destruct H as [Hname Hext]. apply negb_true_iff in Hname.
  unfold parse_pdf_route. rewrite Hname, Hext. cbn [negb].
  destruct (save_outcome file) as [e|u]; [reflexivity|].
  rewrite parse_pdf_eq. unfold trace, outcome.
  destruct (select_strategy str_lower (saved file)) as [t [e|r]];
    reflexivity.
Qed.




(** X19. When [file.save] raises on an accepted upload, the exception
    leaves the route before the [try] block: no library is called and the
    temporary file just created is not removed. *)
Theorem failed_save_leaves_temp_file (file : upload) (e : exn) :
  accepted_name str_lower (filename file) = true ->
  save_outcome file = inl e ->
  parse_pdf_route str_lower (Some file) = ([TmpCreate; FileSave], inl e)
  /\ existsb is_unlink (fst (parse_pdf_route str_lower (Some file))) = false.
Proof.
  intros Ha Hs. rewrite (parse_pdf_route_accepted file Ha), Hs.
  split; reflexivity.
Qed.

End MoreProofs.

(* ===================================================================== *)
(** ** The sample inputs, run through the properties above *)
(* ===================================================================== *)

Lemma is_header_row_one_match_witness :
  is_header_row ascii_lower
    [txt "Date"; txt "  "; txt "Debit"] [txt "Txn"; txt ""; txt "Credit"]
  = true.
Proof.
  apply (is_header_row_one_match ascii_lower _ _ 1 (txt "  ") (txt ""));
    [lia|reflexivity|reflexivity|reflexivity].
Defined.

Lemma result_never_has_one_row_witness :
  exists r,
    outcome (extract_with_camelot ascii_lower footer_doc) = inr r
    /\ ((rows r = [] /\ total_rows r = 0)
        \/ (2 <= length (rows r) /\ 2 <= total_rows r)).
Proof.
  eexists. split; [vm_compute; reflexivity|].
  apply (result_never_has_one_row ascii_lower footer_doc).
  right. vm_compute. reflexivity.
Defined.

Lemma primary_exception_is_500_witness :
  parse_pdf ascii_lower corrupt_doc =
    ([PdfplumberOpen], Json500 (lit "Failed to parse PDF: not a PDF"))
  /\ fallback_invoked (fst (parse_pdf ascii_lower corrupt_doc)) = false.
Proof.
  apply (primary_exception_is_500 ascii_lower corrupt_doc (lit "not a PDF")).
  reflexivity.
Defined.

Lemma both_camelot_modes_raise_witness :
  parse_pdf ascii_lower unreadable_doc =
    ([PdfplumberOpen; ExtractTables 1;
      CamelotReadPdf Lattice; CamelotReadPdf Stream],
     Json500 (lit "Failed to parse PDF: no text layer")).
Proof.
  apply (both_camelot_modes_raise ascii_lower unreadable_doc
           {| rows := []; pages_processed := 0;
              method_used := lit "pdfplumber"; total_rows := 0 |}
           (lit "no grid lines") (lit "no text layer"));
    [reflexivity|simpl; lia|reflexivity|reflexivity].
Defined.

Lemma lattice_success_skips_stream_witness :
  extract_with_camelot ascii_lower statement_doc =
    ([CamelotReadPdf Lattice], inr (camelot_result ascii_lower []))
  /\ (@nil Table = [] ->
      outcome (extract_with_camelot ascii_lower statement_doc) =
      inr empty_camelot_result).
Proof.
  apply (lattice_success_skips_stream ascii_lower statement_doc []).
  reflexivity.
Defined.

Lemma raising_page_aborts_witness :
  extract_with_pdfplumber ascii_lower broken_page_doc =
    ([PdfplumberOpen; ExtractTables 1; ExtractTables 2], inl (lit "bad page")).
Proof.
  apply (raising_page_aborts ascii_lower broken_page_doc
           [[page1_table]] (lit "bad page") [inr [page2_table]]).
  reflexivity.
Defined.

Lemma response_names_its_method_witness :
  exists r,
    snd (parse_pdf ascii_lower footer_doc) = Json200 r
    /\ ((method_used r = lit "pdfplumber"
         /\ 2 <= length (rows r)
         /\ fallback_invoked (fst (parse_pdf ascii_lower footer_doc)) = false)
        \/ (method_used r = lit "camelot"
            /\ fallback_invoked (fst (parse_pdf ascii_lower footer_doc))
               = true)).
Proof.
  eexists. split; [vm_compute; reflexivity|].
  apply (response_names_its_method ascii_lower footer_doc).
  vm_compute. reflexivity.
Defined.

Lemma extractors_agree_witness :
  exists r1 r2,
    outcome (extract_with_pdfplumber ascii_lower same_tables_doc) = inr r1
    /\ outcome (extract_with_camelot ascii_lower same_tables_doc) = inr r2
    /\ rows r1 = rows r2
    /\ total_rows r1 = total_rows r2.
Proof.
  apply (extractors_agree ascii_lower same_tables_doc
           [[page1_table; footer_table]; [page2_table]]);
    reflexivity.
Defined.

Lemma primary_result_is_cleaned_merge_witness :
  exists r,
    outcome (extract_with_pdfplumber ascii_lower same_tables_doc) = inr r
    /\ rows r =
       map (map clean_cell) (merged_rows ascii_lower page1_table [page2_rows])
    /\ total_rows r = 4
    /\ length (rows r) = 4.
Proof.
  apply (primary_result_is_cleaned_merge ascii_lower same_tables_doc
           [[page1_table; footer_table]; [page2_table]]
           page1_table [page2_rows]);
    reflexivity.
Defined.


Lemma failed_save_leaves_temp_file_witness :
  parse_pdf_route ascii_lower (Some unsaved_upload) =
    ([TmpCreate; FileSave], inl (lit "disk full"))
  /\ existsb is_unlink (fst (parse_pdf_route ascii_lower (Some unsaved_upload)))
     = false.
Proof.
  apply (failed_save_leaves_temp_file ascii_lower unsaved_upload
           (lit "disk full"));
    reflexivity.
Defined.

Example corrupt_upload_replied :
  parse_pdf_route ascii_lower (Some corrupt_upload) =
  ([TmpCreate; FileSave; Lib PdfplumberOpen;
    LogError (lit "PDF parsing error: not a PDF"); PathExists; Unlink],
   inr (Error 500 (lit "Failed to parse PDF: not a PDF"))).
Proof. vm_compute. reflexivity. Qed.

Example text_upload_rejected :
  parse_pdf_route ascii_lower (Some text_upload) =
  ([], inr (Error 400 (lit "File must be a PDF"))).
Proof. vm_compute. reflexivity. Qed.
